(** * dailyrotate: a file that is rotated daily

    Shallow embedding of [daily_rotate_file.go] and [daily_rotate_options.go].

    The package keeps one mutable [File] value and talks to the operating
    system through [os], [time] and [path/filepath].  The embedding threads
    two pieces of state through every method: the receiver (the [File]
    record) and the host (an abstract type [H] with the operations of the
    [Host] interface).  Every host call and every hook invocation is also
    recorded as an [Event], in program order, so that statements about
    "which calls happen, and in which order" are statements about a list.

    Modelling choices:
    - The embedded [sync.Mutex] is not modelled: every exported method takes
      the lock on entry and releases it on return, so the methods are
      modelled as running one at a time.
    - A hook is a function on the host: it may do anything to the file
      system, but it does not call back into the [File] (with the lock held
      that would block).
    - A nil [*os.File] is [None]; its methods return [os.ErrInvalid] without
      reaching the host, as the [os] package does.
    - [Location] is never nil ([Time.In] panics on a nil location). *)

From Stdlib Require Import ZArith List String Ascii Bool Lia.
Import ListNotations.
Local Open Scope string_scope.
Local Open Scope list_scope.
Local Open Scope Z_scope.

(** ** Values of the Go standard library *)

(** A [*time.Location], by zone name. *)
Definition Location := string.
Definition UTC : Location := "UTC".

(** A [time.Time] as seen in its location.  [Time.YearDay] ranges over
    1..366, hence the [positive]. *)
Record Time := mkTime {
  t_unix : Z;
  t_year : Z;
  t_yday : positive
}.

Definition YearDay (t : Time) : Z := Z.pos (t_yday t).

(** [error] values: [os.ErrInvalid] is what every method of a nil
    [*os.File] returns; anything else comes from the host. *)
Inductive error :=
| ErrInvalid
| HostError (msg : string).

(** An open [*os.File]; a nil pointer is [None] of [option Handle]. *)
Definition Handle := nat.

Inductive Whence := SeekStart | SeekCurrent | SeekEnd.

(** [os.O_WRONLY], [os.O_CREATE], [os.O_TRUNC], [os.O_APPEND] (Linux). *)
Definition O_WRONLY : Z := 1.
Definition O_CREATE : Z := 64.
Definition O_TRUNC : Z := 512.
Definition O_APPEND : Z := 1024.

(** ** The host interface *)

Record Host (H : Type) := mkHost {
  (** [time.Now().In(loc)] *)
  time_Now : Location -> H -> Time * H;
  (** [t.Format(layout)] *)
  time_Format : Time -> string -> string;
  (** [filepath.Dir(path)] *)
  filepath_Dir : string -> string;
  (** [os.MkdirAll(dir, perm)] *)
  os_MkdirAll : string -> Z -> H -> option error * H;
  (** [os.OpenFile(path, flag, perm)]: a file or an error, never both *)
  os_OpenFile : string -> Z -> Z -> H -> (Handle + error) * H;
  (** the methods of a non-nil [*os.File] *)
  fd_Seek : Handle -> Z -> Whence -> H -> (Z + error) * H;
  fd_Write : Handle -> list Byte.byte -> H -> (Z * option error) * H;
  fd_Sync : Handle -> H -> option error * H;
  fd_Close : Handle -> H -> option error * H
}.

Arguments time_Now {H} _ _ _.
Arguments time_Format {H} _ _ _.
Arguments filepath_Dir {H} _ _.
Arguments os_MkdirAll {H} _ _ _ _.
Arguments os_OpenFile {H} _ _ _ _ _.
Arguments fd_Seek {H} _ _ _ _ _.
Arguments fd_Write {H} _ _ _ _.
Arguments fd_Sync {H} _ _ _.
Arguments fd_Close {H} _ _ _.

(** ** Observable events *)

Inductive Event :=
| EvNow (loc : Location) (t : Time)
| EvMkdirAll (dir : string) (perm : Z) (r : option error)
| EvOpenFile (path : string) (flag perm : Z) (r : Handle + error)
| EvSeek (h : Handle) (off : Z) (wh : Whence) (r : Z + error)
| EvWrite (h : Handle) (d : list Byte.byte) (n : Z) (r : option error)
| EvSync (h : Handle) (r : option error)
| EvClose (h : Handle) (r : option error)
| EvOnOpen (path : string)
| EvBeforeClose (path : string) (willRotate : bool)
| EvOnClose (path : string) (didRotate : bool).

Definition is_hook (e : Event) : bool :=
  match e with
  | EvOnOpen _ | EvBeforeClose _ _ | EvOnClose _ _ => true
  | _ => false
  end.

Definition is_close (e : Event) : bool :=
  match e with EvClose _ _ => true | _ => false end.

Definition is_open (e : Event) : bool :=
  match e with EvOpenFile _ _ _ _ => true | _ => false end.

Definition is_now (e : Event) : bool :=
  match e with EvNow _ _ => true | _ => false end.

Definition is_sync (e : Event) : bool :=
  match e with EvSync _ _ => true | _ => false end.

(** The hook invocations of a run, in order. *)
Definition hooks (l : list Event) : list Event := filter is_hook l.


Section Dailyrotate.

Context {H : Type} (host : Host H).

(** ** type File struct *)

Record File := mkFile {
  pathGenerator : option (Time -> string);
  pathFormat : string;
  Location_ : Location;
  day : Z;
  path : string;
  file : option Handle;
  noHooks : bool;
  onOpen : option (string -> H -> H);
  onClose : option (string -> bool -> H -> H);
  beforeClose : option (string -> bool -> H -> H);
  lastWritePos : Z
}.

Definition set_pathGenerator (g : option (Time -> string)) (f : File) : File :=
  mkFile g (pathFormat f) (Location_ f) (day f) (path f) (file f)
         (noHooks f) (onOpen f) (onClose f) (beforeClose f) (lastWritePos f).
Definition set_pathFormat (s : string) (f : File) : File :=
  mkFile (pathGenerator f) s (Location_ f) (day f) (path f) (file f)
         (noHooks f) (onOpen f) (onClose f) (beforeClose f) (lastWritePos f).
Definition set_Location (l : Location) (f : File) : File :=
  mkFile (pathGenerator f) (pathFormat f) l (day f) (path f) (file f)
         (noHooks f) (onOpen f) (onClose f) (beforeClose f) (lastWritePos f).
Definition set_day (d : Z) (f : File) : File :=
  mkFile (pathGenerator f) (pathFormat f) (Location_ f) d (path f) (file f)
         (noHooks f) (onOpen f) (onClose f) (beforeClose f) (lastWritePos f).
Definition set_path (p : string) (f : File) : File :=
  mkFile (pathGenerator f) (pathFormat f) (Location_ f) (day f) p (file f)
         (noHooks f) (onOpen f) (onClose f) (beforeClose f) (lastWritePos f).
Definition set_file (h : option Handle) (f : File) : File :=
  mkFile (pathGenerator f) (pathFormat f) (Location_ f) (day f) (path f) h
         (noHooks f) (onOpen f) (onClose f) (beforeClose f) (lastWritePos f).
Definition set_noHooks (b : bool) (f : File) : File :=
  mkFile (pathGenerator f) (pathFormat f) (Location_ f) (day f) (path f) (file f)
         b (onOpen f) (onClose f) (beforeClose f) (lastWritePos f).
Definition set_onOpen (k : option (string -> H -> H)) (f : File) : File :=
  mkFile (pathGenerator f) (pathFormat f) (Location_ f) (day f) (path f) (file f)
         (noHooks f) k (onClose f) (beforeClose f) (lastWritePos f).
Definition set_onClose (k : option (string -> bool -> H -> H)) (f : File) : File :=
  mkFile (pathGenerator f) (pathFormat f) (Location_ f) (day f) (path f) (file f)
         (noHooks f) (onOpen f) k (beforeClose f) (lastWritePos f).
Definition set_beforeClose (k : option (string -> bool -> H -> H)) (f : File) : File :=
  mkFile (pathGenerator f) (pathFormat f) (Location_ f) (day f) (path f) (file f)
         (noHooks f) (onOpen f) (onClose f) k (lastWritePos f).
Definition set_lastWritePos (p : Z) (f : File) : File :=
  mkFile (pathGenerator f) (pathFormat f) (Location_ f) (day f) (path f) (file f)
         (noHooks f) (onOpen f) (onClose f) (beforeClose f) p.

(** ** The monad of the methods

    A method runs on the receiver and the host, and returns a value, the
    new receiver and host, and the events it produced. *)

Record Sys := mkSys { self : File; world : H }.

Definition M (A : Type) : Type := Sys -> A * Sys * list Event.

Definition ret {A} (a : A) : M A := fun s => (a, s, []).

Definition bind {A B} (m : M A) (k : A -> M B) : M B :=
  fun s =>
    let '(a, s1, l1) := m s in
    let '(b, s2, l2) := k a s1 in
    (b, s2, l1 ++ l2).

Notation "x <- m ;; k" := (bind m (fun x => k))
  (at level 61, m at next level, right associativity).
Notation "m ;;; k" := (bind m (fun _ => k))
  (at level 61, right associativity).

(** Read the receiver. *)
Definition this : M File := fun s => (self s, s, []).

(** Assign to fields of the receiver. *)
Definition modify (g : File -> File) : M unit :=
  fun s => (tt, mkSys (g (self s)) (world s), []).

(** One host call, with the event that records it. *)
Definition syscall {A} (op : H -> A * H) (ev : A -> Event) : M A :=
  fun s => let '(a, w) := op (world s) in (a, mkSys (self s) w, [ev a]).

(** One hook invocation. *)
Definition callback (k : H -> H) (ev : Event) : M unit :=
  fun s => (tt, mkSys (self s) (k (world s)), [ev]).

Definition when (b : bool) (m : M unit) : M unit :=
  if b then m else ret tt.

(** ** Methods of [*os.File], nil receiver included *)

Definition File_Close (fh : option Handle) : M (option error) :=
  match fh with
  | None => ret (Some ErrInvalid)
  | Some h => syscall (fd_Close host h) (EvClose h)
  end.

Definition File_Sync (fh : option Handle) : M (option error) :=
  match fh with
  | None => ret (Some ErrInvalid)
  | Some h => syscall (fd_Sync host h) (EvSync h)
  end.

(** [Seek] returns offset 0 together with any error. *)
Definition File_Seek (fh : option Handle) (off : Z) (wh : Whence)
  : M (Z * option error) :=
  match fh with
  | None => ret (0, Some ErrInvalid)
  | Some h =>
      r <- syscall (fd_Seek host h off wh) (EvSeek h off wh) ;;
      match r with
      | inl pos => ret (pos, None)
      | inr e => ret (0, Some e)
      end
  end.

Definition File_Write (fh : option Handle) (d : list Byte.byte)
  : M (Z * option error) :=
  match fh with
  | None => ret (0, Some ErrInvalid)
  | Some h =>
      syscall (fd_Write host h d) (fun r => EvWrite h d (fst r) (snd r))
  end.

Definition isSome {A} (o : option A) : bool :=
  match o with Some _ => true | None => false end.

Definition isNil {A} (o : option A) : bool := negb (isSome o).

(** ** func (f *File) close(didRotate bool) error *)

Definition close (didRotate : bool) : M (option error) :=
  f <- this ;;
  match file f with
  | None => ret None
  | Some _ =>
      match beforeClose f with
      | Some k =>
          when (negb (noHooks f))
               (callback (k (path f) didRotate) (EvBeforeClose (path f) didRotate))
      | None => ret tt
      end ;;;
      err <- File_Close (file f) ;;
      modify (set_file None) ;;;
      match onClose f with
      | Some k =>
          when (isNil err && negb (noHooks f))
               (callback (k (path f) didRotate) (EvOnClose (path f) didRotate))
      | None => ret tt
      end ;;;
      modify (set_day 0) ;;;
      ret err
  end.

(** ** func (f *File) Path() string *)

Definition Path : M string :=
  f <- this ;; ret (path f).

(** ** func (f *File) open() error *)

Definition open : M (option error) :=
  f <- this ;;
  t <- syscall (time_Now host (Location_ f)) (EvNow (Location_ f)) ;;
  match pathGenerator f with
  | Some g => modify (set_path (g t))
  | None => modify (set_path (time_Format host t (pathFormat f)))
  end ;;;
  modify (set_day (YearDay t)) ;;;
  f <- this ;;
  let dir := filepath_Dir host (path f) in
  err <- syscall (os_MkdirAll host dir 493) (EvMkdirAll dir 493) ;;
  match err with
  | Some e => ret (Some e)
  | None =>
      let flag := Z.lor O_CREATE O_WRONLY in
      r <- syscall (os_OpenFile host (path f) flag 420)
                   (EvOpenFile (path f) flag 420) ;;
      match r with
      | inr e => modify (set_file None) ;;; ret (Some e)
      | inl h =>
          modify (set_file (Some h)) ;;;
          r <- File_Seek (Some h) 0 SeekEnd ;;
          let err := snd r in
          f <- this ;;
          match onOpen f with
          | Some k =>
              when (isNil err && negb (noHooks f))
                   (callback (k (path f)) (EvOnOpen (path f)))
          | None => ret tt
          end ;;;
          ret err
      end
  end.

(** ** func (f *File) reopenIfNeeded() error *)

Definition reopenIfNeeded : M (option error) :=
  f <- this ;;
  t <- syscall (time_Now host (Location_ f)) (EvNow (Location_ f)) ;;
  if YearDay t =? day f then ret None
  else
    err <- close true ;;
    match err with
    | Some e => ret (Some e)
    | None => open
    end.

(** ** daily_rotate_options.go: type option, a function on a File *)

Definition option_ := File -> File.

Definition WithOnOpen (k : option (string -> H -> H)) : option_ :=
  fun f => set_onOpen k f.

Definition WithOnClose (k : option (string -> bool -> H -> H)) : option_ :=
  fun f => set_onClose k f.

Definition WithBeforeClose (k : option (string -> bool -> H -> H)) : option_ :=
  fun f => set_beforeClose k f.

Definition WithPathGenerator (g : option (Time -> string)) : option_ :=
  fun f => set_pathGenerator g f.

Definition WithPathFormat (s : string) : option_ :=
  fun f => set_pathFormat s f.

Definition WithLocation (l : Location) : option_ :=
  fun f => set_Location l f.

(** The options a caller can build: the six constructors above. *)
Inductive exported : option_ -> Prop :=
| ex_OnOpen k : exported (WithOnOpen k)
| ex_OnClose k : exported (WithOnClose k)
| ex_BeforeClose k : exported (WithBeforeClose k)
| ex_PathGenerator g : exported (WithPathGenerator g)
| ex_PathFormat s : exported (WithPathFormat s)
| ex_Location l : exported (WithLocation l).

(** ** func New(opts ...option): a File or an error *)

(** [&File{Location: time.UTC}] *)
Definition zero_File : File :=
  mkFile None EmptyString UTC 0 EmptyString None false None None None 0.

(** [for _, opt := range opts { opt(f) }] *)
Definition configure (opts : list option_) : File :=
  fold_left (fun f opt => opt f) opts zero_File.

Definition probe : M (option error) :=
  err <- reopenIfNeeded ;;
  match err with
  | Some e => ret (Some e)
  | None => close false
  end.

Definition New (opts : list option_) (w : H) : (File + error) * H * list Event :=
  let f := configure opts in
  let '(err, s, evs) := (modify (set_noHooks true) ;;; probe) (mkSys f w) in
  (* the deferred [f.noHooks = false] *)
  let f := set_noHooks false (self s) in
  match err with
  | Some e => (inr e, world s, evs)
  | None => (inl f, world s, evs)
  end.

(** ** func NewFile, func NewFileWithPathGenerator *)

Definition NewFile (pathFormat : string)
    (onClose : option (string -> bool -> H -> H)) :=
  New (WithPathFormat pathFormat ::
       match onClose with
       | Some k => [WithOnClose (Some k)]
       | None => []
       end).

Definition NewFileWithPathGenerator (pathGenerator : option (Time -> string))
    (onClose : option (string -> bool -> H -> H)) :=
  New (WithPathGenerator pathGenerator ::
       match onClose with
       | Some k => [WithOnClose (Some k)]
       | None => []
       end).

(** ** func newFile (unexported, not called) *)

Definition newFile (pathFormat : string) (pathGenerator : option (Time -> string))
    (onClose : option (string -> bool -> H -> H)) (w : H)
  : (File + error) * H * list Event :=
  let f := mkFile pathGenerator pathFormat UTC 0 EmptyString None false None None None 0 in
  let '(err, s, evs) := probe (mkSys f w) in
  match err with
  | Some e => (inr e, world s, evs)
  | None => (inl (set_onClose onClose (self s)), world s, evs)
  end.

(** ** func (f *File) Close() error *)

Definition Close : M (option error) := close false.

(** ** func (f *File) write(d []byte, flush bool) (int64, int, error) *)

Definition write (d : list Byte.byte) (flush : bool) : M (Z * Z * option error) :=
  err <- reopenIfNeeded ;;
  match err with
  | Some e => ret (0, 0, Some e)
  | None =>
      f <- this ;;
      r <- File_Seek (file f) 0 SeekCurrent ;;
      modify (set_lastWritePos (fst r)) ;;;
      match snd r with
      | Some e => ret (0, 0, Some e)
      | None =>
          r <- File_Write (file f) d ;;
          let n := fst r in
          match snd r with
          | Some e => ret (0, n, Some e)
          | None =>
              err <- (if flush then File_Sync (file f) else ret None) ;;
              f <- this ;;
              ret (lastWritePos f, n, err)
          end
      end
  end.

(** ** func (f *File) Write(d []byte) (int, error) *)

Definition Write (d : list Byte.byte) : M (Z * option error) :=
  r <- write d false ;;
  let '(_, n, err) := r in
  ret (n, err).

(** ** func (f *File) Write2(d []byte, flush bool) (string, int64, int, error) *)

Definition Write2 (d : list Byte.byte) (flush : bool)
  : M (string * Z * Z * option error) :=
  r <- write d flush ;;
  let '(writtenAtPos, n, err) := r in
  f <- this ;;
  ret (path f, writtenAtPos, n, err).

(** ** func (f *File) Flush() error *)

Definition Flush : M (option error) :=
  f <- this ;;
  File_Sync (file f).

(** ** Reachable instances

    An instance starts its life as the result of a successful [New]; after
    that the caller may call the exported methods in any order, against a
    host that may have changed in between. *)

Inductive Call :=
| CallWrite (d : list Byte.byte)
| CallWrite2 (d : list Byte.byte) (flush : bool)
| CallClose
| CallFlush
| CallPath.

Definition perform (c : Call) (s : Sys) : Sys * list Event :=
  match c with
  | CallWrite d => let '(_, s', l) := Write d s in (s', l)
  | CallWrite2 d flush => let '(_, s', l) := Write2 d flush s in (s', l)
  | CallClose => let '(_, s', l) := Close s in (s', l)
  | CallFlush => let '(_, s', l) := Flush s in (s', l)
  | CallPath => let '(_, s', l) := Path s in (s', l)
  end.

Inductive reachable : File -> Prop :=
| reach_New opts w f w' evs :
    Forall exported opts ->
    New opts w = (inl f, w', evs) ->
    reachable f
| reach_call f c w :
    reachable f ->
    reachable (self (fst (perform c (mkSys f w)))).

End Dailyrotate.

Arguments File : clear implicits.
Arguments Sys : clear implicits.
Arguments M : clear implicits.
Arguments option_ : clear implicits.

(** ** A simulated host

    An in-memory file system with a scripted clock, used to run the methods
    on concrete inputs.  Failures are injected by listing the directories
    that cannot be created and the paths that cannot be opened, and by two
    switches for [Seek] and [Close]. *)

Module Sim.

Record Disk := mkDisk {
  clock : list Time;                      (* successive readings; the last repeats *)
  files : list (string * list Byte.byte); (* path and contents *)
  fds : list (Handle * (string * Z));     (* open descriptors: path and offset *)
  next_fd : Handle;
  bad_dirs : list string;
  bad_paths : list string;
  seek_fails : bool;
  close_fails : bool
}.

Definition epoch : Time := mkTime 0 1970 1.

Definition now (_ : Location) (d : Disk) : Time * Disk :=
  match clock d with
  | [] => (epoch, d)
  | [t] => (t, d)
  | t :: rest =>
      (t, mkDisk rest (files d) (fds d) (next_fd d) (bad_dirs d) (bad_paths d)
                 (seek_fails d) (close_fails d))
  end.

(** Layouts without reference-time elements format to themselves; the
    simulated host handles only those. *)
Definition format (_ : Time) (layout : string) : string := layout.

(** The part of [s] before its last slash, if it has one. *)
Fixpoint dirname (s : string) : option string :=
  match s with
  | EmptyString => None
  | String c r =>
      match dirname r with
      | Some d => Some (String c d)
      | None => if Ascii.eqb c "/"%char then Some EmptyString else None
      end
  end.

Definition dir (p : string) : string :=
  match dirname p with
  | Some EmptyString => "/"
  | Some d => d
  | None => "."
  end.

Definition mem (s : string) (l : list string) : bool :=
  existsb (String.eqb s) l.

Fixpoint lookup {A B} (eqb : A -> A -> bool) (k : A) (l : list (A * B)) : option B :=
  match l with
  | [] => None
  | (k', v) :: r => if eqb k k' then Some v else lookup eqb k r
  end.

Fixpoint update {A B} (eqb : A -> A -> bool) (k : A) (v : B) (l : list (A * B))
  : list (A * B) :=
  match l with
  | [] => [(k, v)]
  | (k', v') :: r => if eqb k k' then (k, v) :: r else (k', v') :: update eqb k v r
  end.

Definition remove {A B} (eqb : A -> A -> bool) (k : A) (l : list (A * B))
  : list (A * B) :=
  filter (fun kv => negb (eqb k (fst kv))) l.

Definition EACCES : error := HostError "permission denied".
Definition ENOENT : error := HostError "no such file or directory".
Definition EBADF : error := HostError "bad file descriptor".
Definition EIO : error := HostError "input/output error".

Definition mkdirAll (dir : string) (_ : Z) (d : Disk) : option error * Disk :=
  if mem dir (bad_dirs d) then (Some EACCES, d) else (None, d).

Definition openFile (p : string) (_ _ : Z) (d : Disk) : (Handle + error) * Disk :=
  if String.eqb p EmptyString then (inr ENOENT, d)
  else if mem p (bad_paths d) then (inr EACCES, d)
  else
    let h := next_fd d in
    let fs := match lookup String.eqb p (files d) with
              | Some _ => files d
              | None => files d ++ [(p, [])]
              end in
    (inl h, mkDisk (clock d) fs ((h, (p, 0)) :: fds d) (S h) (bad_dirs d)
                   (bad_paths d) (seek_fails d) (close_fails d)).

Definition size (p : string) (d : Disk) : Z :=
  match lookup String.eqb p (files d) with
  | Some c => Z.of_nat (List.length c)
  | None => 0
  end.

Definition seek (h : Handle) (off : Z) (wh : Whence) (d : Disk) : (Z + error) * Disk :=
  match lookup Nat.eqb h (fds d) with
  | None => (inr EBADF, d)
  | Some (p, cur) =>
      if seek_fails d then (inr EIO, d)
      else
        let pos := match wh with
                   | SeekStart => off
                   | SeekCurrent => cur + off
                   | SeekEnd => size p d + off
                   end in
        (inl pos, mkDisk (clock d) (files d) (update Nat.eqb h (p, pos) (fds d))
                         (next_fd d) (bad_dirs d) (bad_paths d)
                         (seek_fails d) (close_fails d))
  end.

Definition splice (c : list Byte.byte) (pos : nat) (b : list Byte.byte)
  : list Byte.byte :=
  firstn pos c ++ b ++ skipn (pos + List.length b) c.

Definition writeFd (h : Handle) (b : list Byte.byte) (d : Disk)
  : (Z * option error) * Disk :=
  match lookup Nat.eqb h (fds d) with
  | None => ((0, Some EBADF), d)
  | Some (p, cur) =>
      let c := match lookup String.eqb p (files d) with
               | Some c => c
               | None => []
               end in
      let n := Z.of_nat (List.length b) in
      ((n, None),
       mkDisk (clock d) (update String.eqb p (splice c (Z.to_nat cur) b) (files d))
              (update Nat.eqb h (p, cur + n) (fds d))
              (next_fd d) (bad_dirs d) (bad_paths d) (seek_fails d) (close_fails d))
  end.

Definition sync (h : Handle) (d : Disk) : option error * Disk :=
  match lookup Nat.eqb h (fds d) with
  | None => (Some EBADF, d)
  | Some _ => (None, d)
  end.

Definition closeFd (h : Handle) (d : Disk) : option error * Disk :=
  match lookup Nat.eqb h (fds d) with
  | None => (Some EBADF, d)
  | Some _ =>
      let d' := mkDisk (clock d) (files d) (remove Nat.eqb h (fds d)) (next_fd d)
                       (bad_dirs d) (bad_paths d) (seek_fails d) (close_fails d) in
      if close_fails d then (Some EIO, d') else (None, d')
  end.

Definition host : Host Disk :=
  mkHost Disk now format dir mkdirAll openFile seek writeFd sync closeFd.

(** A disk on which everything succeeds, with the given clock. *)
Definition fresh (ts : list Time) : Disk :=
  mkDisk ts [] [] 3%nat [] [] false false.

(** Two instants on the 15th day of the year, one year apart, and one on
    the 16th. *)
Definition jan15 : Time := mkTime 1705363199 2024 15.
Definition jan16 : Time := mkTime 1705363201 2024 16.
Definition jan15_next_year : Time := mkTime 1736899200 2025 15.

(** A path generator: one file per day of the year. *)
Definition daily (t : Time) : string :=
  if YearDay t =? 15 then "logs/15.txt"
  else if YearDay t =? 16 then "logs/16.txt"
  else "logs/other.txt".

End Sim.

(** ** Concrete instances and disks *)

Module Scenario.
Import Sim.

Definition keep1 : string -> Disk -> Disk := fun _ d => d.
Definition keep2 : string -> bool -> Disk -> Disk := fun _ _ d => d.

(** A path generator and the three hooks. *)
Definition opts_hooks : list (option_ Disk) :=
  [WithPathGenerator (Some daily); WithOnOpen (Some keep1);
   WithOnClose (Some keep2); WithBeforeClose (Some keep2)].

(** Both naming strategies at once. *)
Definition opts_both : list (option_ Disk) :=
  [WithPathGenerator (Some daily); WithPathFormat "x.log"].

(** The instance [New] returns on the 15th: nothing open, path probed. *)
Definition started : File Disk :=
  set_path "logs/15.txt" (configure opts_hooks).

(** The same instance after its first write on the 15th: handle 4 open. *)
Definition opened : File Disk :=
  set_file (Some 4%nat) (set_day 15 started).

(** The disk after that write: one empty file, one descriptor. *)
Definition disk_after (ts : list Time) : Disk :=
  mkDisk ts [("logs/15.txt", [])] [(4%nat, ("logs/15.txt", 0))] 5%nat
         [] [] false false.

(** The same disk, on which [Close] reports an error. *)
Definition disk_close_fails (ts : list Time) : Disk :=
  mkDisk ts [("logs/15.txt", [])] [(4%nat, ("logs/15.txt", 0))] 5%nat
         [] [] false true.

(** The disk [New] leaves behind, on which the file of the 16th cannot
    be opened. *)
Definition disk_denied (ts : list Time) : Disk :=
  mkDisk ts [("logs/15.txt", [])] [] 4%nat [] ["logs/16.txt"] false false.

End Scenario.

(** * Properties *)

(** ** Reading event lists *)

(** The event a registered hook leaves when it is allowed to fire. *)
Definition fired {A} (k : option A) (allowed : bool) (ev : Event) : list Event :=
  if isSome k && allowed then [ev] else [].

Definition closed_ok (l : list Event) : bool :=
  existsb (fun e => match e with EvClose _ None => true | _ => false end) l.

Definition mkdir_ok (l : list Event) : bool :=
  existsb (fun e => match e with EvMkdirAll _ _ None => true | _ => false end) l.

Definition opened_ok (l : list Event) : bool :=
  existsb (fun e => match e with EvSeek _ _ SeekEnd (inl _) => true | _ => false end) l.

(** Reads, writes and syncs on handle [h]. *)
Definition targets (h : Handle) (e : Event) : bool :=
  match e with
  | EvSeek h' _ SeekCurrent _ | EvWrite h' _ _ _ | EvSync h' _ => Nat.eqb h' h
  | _ => false
  end.

Definition io_on (fh : option Handle) (e : Event) : bool :=
  match fh with
  | Some h => targets h e
  | None => false
  end.



(** ** Reading receivers *)

(** The path [open] assigns when the clock reads [t]. *)
Definition resolve {H} (host : Host H) (f : File H) (t : Time) : string :=
  match pathGenerator f with
  | Some g => g t
  | None => time_Format host t (pathFormat f)
  end.

(** The fields no exported option assigns. *)
Definition pristine {H} (f : File H) : Prop :=
  day f = 0 /\ file f = None /\ noHooks f = false /\
  path f = EmptyString /\ lastWritePos f = 0.

(** What every method keeps of a constructed instance: hooks are enabled,
    and an open file has a bucket. *)
Definition sound {H} (f : File H) : Prop :=
  noHooks f = false /\ (file f <> None -> day f <> 0).

(** The fields set once at construction. *)
Definition same_config {H} (f f' : File H) : Prop :=
  pathGenerator f' = pathGenerator f /\ pathFormat f' = pathFormat f /\
  Location_ f' = Location_ f /\ noHooks f' = noHooks f /\
  onOpen f' = onOpen f /\ onClose f' = onClose f /\
  beforeClose f' = beforeClose f.

(** ** Reading the events of a write *)

(** Calls on the handle being written: seek to the current offset, write,
    sync. *)
Definition is_io (e : Event) : bool :=
  match e with
  | EvSeek _ _ SeekCurrent _ | EvWrite _ _ _ _ | EvSync _ _ => true
  | _ => false
  end.

Definition is_write (e : Event) : bool :=
  match e with EvWrite _ _ _ _ => true | _ => false end.

Definition written_ok (l : list Event) : bool :=
  existsb (fun e => match e with EvWrite _ _ _ None => true | _ => false end) l.

Definition sync_failed (l : list Event) : bool :=
  existsb (fun e => match e with EvSync _ (Some _) => true | _ => false end) l.

(** The byte count the host reported for the write, 0 if it was not called. *)
Definition bytes_written (l : list Event) : Z :=
  match filter is_write l with
  | EvWrite _ _ n _ :: _ => n
  | _ => 0
  end.

Definition no_io (l : list Event) : bool :=
  forallb (fun e => negb (is_io e)) l.

Ltac unfold_monad :=
  unfold bind, ret, this, modify, syscall, callback, when in *;
  cbn -[close open reopenIfNeeded write YearDay] in *.

(** Solve a disjunction by the first disjunct [tac] closes. *)
Ltac choose tac :=
  first [ solve [tac] | left; solve [tac] | right; choose tac ].

Ltac break_host :=
  repeat match goal with
  | |- context [time_Now ?h ?l ?w] =>
      let t := fresh "t" in let w' := fresh "w" in let E := fresh "Enow" in
      destruct (time_Now h l w) as [t w'] eqn:E; cbn in *
  | |- context [os_MkdirAll ?h ?d ?p ?w] =>
      let r := fresh "rm" in let w' := fresh "w" in let E := fresh "Emk" in
      destruct (os_MkdirAll h d p w) as [[r|] w'] eqn:E; cbn in *
  | |- context [os_OpenFile ?h ?d ?fl ?p ?w] =>
      let r := fresh "ro" in let w' := fresh "w" in let E := fresh "Eop" in
      destruct (os_OpenFile h d fl p w) as [[r|r] w'] eqn:E; cbn in *
  | |- context [fd_Seek ?h ?fd ?o ?wh ?w] =>
      let r := fresh "rs" in let w' := fresh "w" in let E := fresh "Esk" in
      destruct (fd_Seek h fd o wh w) as [[r|r] w'] eqn:E; cbn in *
  | |- context [fd_Write ?h ?fd ?d ?w] =>
      let n := fresh "n" in let r := fresh "rw" in let w' := fresh "w" in
      let E := fresh "Ewr" in
      destruct (fd_Write h fd d w) as [[n [r|]] w'] eqn:E; cbn in *
  | |- context [fd_Sync ?h ?fd ?w] =>
      let r := fresh "ry" in let w' := fresh "w" in let E := fresh "Esy" in
      destruct (fd_Sync h fd w) as [[r|] w'] eqn:E; cbn in *
  | |- context [fd_Close ?h ?fd ?w] =>
      let r := fresh "rc" in let w' := fresh "w" in let E := fresh "Ecl" in
      destruct (fd_Close h fd w) as [[r|] w'] eqn:E; cbn in *
  end.

Section Properties.

Context {H : Type} (host : Host H).

Local Abbreviation File := (File H).
Local Abbreviation Sys := (Sys H).
Local Abbreviation resolve := (resolve host).

(** *** close *)

Lemma close_nil (b : bool) (s : Sys) :
  file (self s) = None -> close host b s = (None, s, []).
Proof.
  intros Hnil. unfold close. unfold_monad. rewrite Hnil. reflexivity.
Qed.

(** With a file open, [close] calls the hooks around exactly one host
    close, and leaves the receiver without handle and without bucket. *)
Lemma close_open (b : bool) (s : Sys) (h : Handle) :
  file (self s) = Some h ->
  exists rc w',
    close host b s =
      (rc, mkSys (set_day 0 (set_file None (self s))) w',
       fired (beforeClose (self s)) (negb (noHooks (self s)))
             (EvBeforeClose (path (self s)) b)
       ++ [EvClose h rc]
       ++ fired (onClose (self s)) (isNil rc && negb (noHooks (self s)))
                (EvOnClose (path (self s)) b)).
Proof.
  intros Hopen. destruct s as [f w]. cbn [self world] in *.
  unfold close, File_Close, fired. unfold_monad.
  rewrite Hopen.
  destruct (beforeClose f) as [kb|], (onClose f) as [kc|], (noHooks f);
    unfold_monad; break_host; eexists; eexists;
    (apply (f_equal2 pair); [reflexivity | cbn; reflexivity]).
Qed.

Lemma close_file_nil (b : bool) (s : Sys) :
  file (self (snd (fst (close host b s)))) = None.
Proof.
  destruct (file (self s)) as [h|] eqn:E.
  - destruct (close_open b s h E) as (rc & w' & ->). reflexivity.
  - rewrite close_nil by assumption. assumption.
Qed.

(** *** open *)

(** [open] assigns path and bucket first, and then stops at the first of
    [MkdirAll], [OpenFile] and [Seek] that fails. *)
Lemma open_cases (s : Sys) :
  exists t w1,
    time_Now host (Location_ (self s)) (world s) = (t, w1) /\
    let p := resolve (self s) t in
    let f1 := set_day (YearDay t) (set_path p (self s)) in
    let dir := filepath_Dir host p in
    let flag := Z.lor O_CREATE O_WRONLY in
    let now := EvNow (Location_ (self s)) t in
    (exists e w',
        open host s = (Some e, mkSys f1 w', [now; EvMkdirAll dir 493 (Some e)]))
    \/ (exists e w',
        open host s =
          (Some e, mkSys (set_file None f1) w',
           [now; EvMkdirAll dir 493 None; EvOpenFile p flag 420 (inr e)]))
    \/ (exists h e w',
        open host s =
          (Some e, mkSys (set_file (Some h) f1) w',
           [now; EvMkdirAll dir 493 None; EvOpenFile p flag 420 (inl h);
            EvSeek h 0 SeekEnd (inr e)]))
    \/ (exists h pos w',
        open host s =
          (None, mkSys (set_file (Some h) f1) w',
           [now; EvMkdirAll dir 493 None; EvOpenFile p flag 420 (inl h);
            EvSeek h 0 SeekEnd (inl pos)]
           ++ fired (onOpen (self s)) (negb (noHooks (self s))) (EvOnOpen p))).
Proof.
  destruct s as [f w]. cbn [self world].
  destruct (time_Now host (Location_ f) w) as [t w1] eqn:Enow.
  exists t, w1. split; [reflexivity|].
  unfold open, File_Seek, resolve, fired. unfold_monad. rewrite Enow.
  destruct (pathGenerator f) as [g|]; unfold_monad; break_host;
    destruct (onOpen f) as [k|], (noHooks f); unfold_monad;
    choose ltac:(eexists; eexists; first [reflexivity | eexists; reflexivity]).
Qed.

(** *** reopenIfNeeded *)

Lemma reopen_same_day (s : Sys) (t : Time) (w1 : H) :
  time_Now host (Location_ (self s)) (world s) = (t, w1) ->
  YearDay t = day (self s) ->
  reopenIfNeeded host s =
    (None, mkSys (self s) w1, [EvNow (Location_ (self s)) t]).
Proof.
  intros Enow Eday. unfold reopenIfNeeded. unfold_monad.
  rewrite Enow. cbn -[YearDay]. rewrite Eday, Z.eqb_refl. reflexivity.
Qed.

Lemma reopen_other_day (s : Sys) (t : Time) (w1 : H) :
  time_Now host (Location_ (self s)) (world s) = (t, w1) ->
  YearDay t <> day (self s) ->
  reopenIfNeeded host s =
    let now := EvNow (Location_ (self s)) t in
    let '(err, s1, l1) := close host true (mkSys (self s) w1) in
    match err with
    | Some e => (Some e, s1, now :: l1)
    | None => let '(r, s2, l2) := open host s1 in (r, s2, now :: l1 ++ l2)
    end.
Proof.
  intros Enow Eday. unfold reopenIfNeeded. unfold_monad.
  rewrite Enow. cbn -[close open YearDay].
  apply Z.eqb_neq in Eday. rewrite Eday.
  destruct (close host true _) as [[[e|] s1] l1];
    [now rewrite app_nil_r|].
  destruct (open host s1) as [[r s2] l2]. reflexivity.
Qed.

(** *** write *)

Lemma io_only (fh : option Handle) (l : list Event) :
  forallb (io_on fh) l = true ->
  hooks l = [] /\ filter is_close l = [] /\ filter is_open l = [] /\
  filter is_now l = [] /\ closed_ok l = false /\ mkdir_ok l = false /\
  opened_ok l = false.
Proof.
  unfold hooks, closed_ok, mkdir_ok, opened_ok.
  induction l as [|e l IH]; cbn; [tauto|].
  intros Hall. apply andb_prop in Hall as [He Hl].
  destruct (IH Hl) as (I1 & I2 & I3 & I4 & I5 & I6 & I7).
  destruct fh as [h|]; [|discriminate].
  destruct e; try discriminate; cbn in He |- *;
    try (destruct wh; try discriminate); cbn; repeat split; assumption.
Qed.

(** After the rotation check, [write] only seeks, writes and syncs on the
    handle the check left behind, and assigns nothing but [lastWritePos]. *)
Lemma write_after_reopen (d : list Byte.byte) (flush : bool) (s : Sys) :
  let '(err, s1, l1) := reopenIfNeeded host s in
  match err with
  | Some e => write host d flush s = ((0, 0, Some e), s1, l1)
  | None =>
      exists r pos w' l2,
        write host d flush s =
          (r, mkSys (set_lastWritePos pos (self s1)) w', l1 ++ l2) /\
        forallb (io_on (file (self s1))) l2 = true
  end.
Proof.
  unfold write. unfold_monad.
  destruct (reopenIfNeeded host s) as [[[e|] [f1 w1]] l1];
    [now rewrite app_nil_r|].
  unfold File_Seek, File_Write, File_Sync. cbn [self world].
  destruct (file f1) as [h|]; unfold_monad; break_host;
    try (destruct flush; unfold_monad; break_host);
    do 4 eexists; (split; [reflexivity|]); cbn; rewrite ?Nat.eqb_refl;
    reflexivity.
Qed.

(** *** New *)

Lemma exported_pristine (o : option_ H) (f : File) :
  exported o -> pristine f -> pristine (o f).
Proof. intros [] Hf; exact Hf. Qed.

Lemma configure_pristine (opts : list (option_ H)) :
  Forall exported opts -> pristine (configure opts).
Proof.
  unfold configure.
  assert (Hz : pristine (@zero_File H)) by (repeat split).
  revert Hz. generalize (@zero_File H).
  induction opts as [|o opts IH]; intros f Hf Hall; [exact Hf|].
  inversion Hall; subst. cbn. apply IH; auto using exported_pristine.
Qed.

Lemma pristine_set_path (f : File) (p : string) (t : Time) (h : Handle) :
  pristine f ->
  set_noHooks false
    (set_day 0 (set_file None
       (set_file (Some h)
          (set_day (YearDay t) (set_path p (set_noHooks true f))))))
  = set_path p f.
Proof.
  intros (Hd & Hf & Hn & _). unfold set_path. rewrite <- Hd, <- Hf, <- Hn.
  reflexivity.
Qed.

(** The five ways [New] can end: at the first failing host call of the
    probe, or with an instance that differs from the configured one in its
    [path] only. *)
Lemma New_cases (opts : list (option_ H)) (w : H) :
  Forall exported opts ->
  let f0 := configure opts in
  let loc := Location_ f0 in
  exists t1 t2 w',
    let p := resolve f0 t2 in
    let dir := filepath_Dir host p in
    let flag := Z.lor O_CREATE O_WRONLY in
    (exists e,
        New host opts w =
          (inr e, w', [EvNow loc t1; EvNow loc t2; EvMkdirAll dir 493 (Some e)]))
    \/ (exists e,
        New host opts w =
          (inr e, w',
           [EvNow loc t1; EvNow loc t2; EvMkdirAll dir 493 None;
            EvOpenFile p flag 420 (inr e)]))
    \/ (exists h e,
        New host opts w =
          (inr e, w',
           [EvNow loc t1; EvNow loc t2; EvMkdirAll dir 493 None;
            EvOpenFile p flag 420 (inl h); EvSeek h 0 SeekEnd (inr e)]))
    \/ (exists h pos e,
        New host opts w =
          (inr e, w',
           [EvNow loc t1; EvNow loc t2; EvMkdirAll dir 493 None;
            EvOpenFile p flag 420 (inl h); EvSeek h 0 SeekEnd (inl pos);
            EvClose h (Some e)]))
    \/ (exists h pos,
        New host opts w =
          (inl (set_path p f0), w',
           [EvNow loc t1; EvNow loc t2; EvMkdirAll dir 493 None;
            EvOpenFile p flag 420 (inl h); EvSeek h 0 SeekEnd (inl pos);
            EvClose h None])).
Proof.
  intros Hex f0 loc.
  pose proof (configure_pristine opts Hex) as Hpr. fold f0 in Hpr.
  destruct Hpr as (Hd & Hf & Hn & Hp & Hl).
  unfold New, probe, bind, modify. fold f0. cbn [self world].
  destruct (time_Now host loc w) as [t1 w1] eqn:E1.
  rewrite (reopen_other_day (mkSys (set_noHooks true f0) w) t1 w1);
    [ | exact E1 | cbn; rewrite Hd; discriminate ].
  cbn [self world].
  rewrite close_nil by exact Hf.
  destruct (open_cases (mkSys (set_noHooks true f0) w1))
    as (t2 & w2 & E2 & Hopen).
  cbn [self world] in Hopen.
  exists t1, t2.
  destruct Hopen as [(e & w' & ->) | [(e & w' & ->) | [(h & e & w' & ->)
                    | (h & pos & w' & ->)]]].
  - exists w'. left. exists e. reflexivity.
  - exists w'. right; left. exists e. reflexivity.
  - exists w'. right; right; left. exists h, e. reflexivity.
  - destruct (close_open false
                (mkSys (set_file (Some h)
                   (set_day (YearDay t2)
                      (set_path (resolve (set_noHooks true f0) t2)
                         (set_noHooks true f0)))) w') h eq_refl)
      as (rc & w'' & Hc).
    unfold fired in *. cbn [noHooks set_noHooks set_file set_day set_path
                            negb andb self world] in *.
    rewrite !andb_false_r in *. cbn [app] in *.
    unfold ret. cbn [app]. rewrite Hc.
    exists w''. destruct rc as [e|].
    + right; right; right; left. exists h, pos, e. reflexivity.
    + right; right; right; right. exists h, pos. cbn [self world].
      rewrite pristine_set_path by (repeat split; assumption).
      reflexivity.
Qed.

(** *** What constructed instances keep *)

Lemma YearDay_nonzero (t : Time) : YearDay t <> 0.
Proof. unfold YearDay. discriminate. Qed.

Lemma close_sound (b : bool) (s : Sys) :
  sound (self s) -> sound (self (snd (fst (close host b s)))).
Proof.
  intros [Hn Hd]. destruct (file (self s)) as [h|] eqn:Ef.
  - destruct (close_open b s h Ef) as (rc & w' & ->).
    split; cbn; [exact Hn | congruence].
  - rewrite close_nil by exact Ef. cbn [fst snd].
    split; [exact Hn | intros Hc; exfalso; apply Hc; exact Ef].
Qed.

Lemma open_sound (s : Sys) :
  noHooks (self s) = false -> sound (self (snd (fst (open host s)))).
Proof.
  intros Hn. destruct (open_cases s) as (t & w1 & _ & Hc). cbv zeta in Hc.
  destruct Hc as [(e & w' & ->) | [(e & w' & ->) | [(h & e & w' & ->)
                 | (h & pos & w' & ->)]]];
    (split; [exact Hn | intros _; apply YearDay_nonzero]).
Qed.

Lemma reopen_sound (s : Sys) :
  sound (self s) -> sound (self (snd (fst (reopenIfNeeded host s)))).
Proof.
  intros Hs.
  destruct (time_Now host (Location_ (self s)) (world s)) as [t w1] eqn:Enow.
  destruct (Z.eq_dec (YearDay t) (day (self s))) as [Heq|Hne].
  - rewrite (reopen_same_day s t w1 Enow Heq). exact Hs.
  - rewrite (reopen_other_day s t w1 Enow Hne). cbv zeta.
    pose proof (close_sound true (mkSys (self s) w1) Hs) as Hc.
    destruct (close host true (mkSys (self s) w1)) as [[[e|] s1] l1];
      cbn [fst snd] in *; [exact Hc|].
    pose proof (open_sound s1 (proj1 Hc)) as Ho.
    destruct (open host s1) as [[r s2] l2]. exact Ho.
Qed.

Lemma write_sound (d : list Byte.byte) (flush : bool) (s : Sys) :
  sound (self s) -> sound (self (snd (fst (write host d flush s)))).
Proof.
  intros Hs. pose proof (reopen_sound s Hs) as Hr.
  pose proof (write_after_reopen d flush s) as Hw.
  destruct (reopenIfNeeded host s) as [[[e|] s1] l1]; cbn [fst snd] in *.
  - rewrite Hw. exact Hr.
  - destruct Hw as (r & pos & w' & l2 & -> & _). exact Hr.
Qed.

Lemma Flush_self (s : Sys) : self (snd (fst (Flush host s))) = self s.
Proof.
  destruct s as [f w]. unfold Flush, File_Sync. unfold_monad.
  destruct (file f); unfold_monad; break_host; reflexivity.
Qed.

Lemma perform_sound (c : Call) (s : Sys) :
  sound (self s) -> sound (self (fst (perform host c s))).
Proof.
  intros Hs. destruct c as [d|d flush| | |]; unfold perform.
  - pose proof (write_sound d false s Hs) as Hw.
    unfold Write, bind, ret.
    destruct (write host d false s) as [[[[pos n] err] s1] l1]. exact Hw.
  - pose proof (write_sound d flush s Hs) as Hw.
    unfold Write2, bind, ret, this.
    destruct (write host d flush s) as [[[[pos n] err] s1] l1]. exact Hw.
  - pose proof (close_sound false s Hs) as Hc. unfold Close.
    destruct (close host false s) as [[r s1] l1]. exact Hc.
  - pose proof (Flush_self s) as Hf.
    destruct (Flush host s) as [[r s1] l1]. cbn [fst snd] in *.
    rewrite Hf. exact Hs.
  - exact Hs.
Qed.

(** Every reachable instance has its hooks enabled, and a bucket whenever
    it has a file open. *)
Lemma reachable_sound (f : File) : reachable host f -> sound f.
Proof.
  induction 1 as [opts w f w' evs Hex HNew | f c w _ IH].
  - pose proof (configure_pristine opts Hex) as (Hd & Hf & Hn & _).
    destruct (New_cases opts w Hex) as (t1 & t2 & w2 & Hc). cbv zeta in Hc.
    destruct Hc as [(e & Hc) | [(e & Hc) | [(h & e & Hc) | [(h & pos & e & Hc)
                   | (h & pos & Hc)]]]];
      rewrite Hc in HNew; inversion HNew; subst.
    split; cbn; [exact Hn | congruence].
  - apply (perform_sound c (mkSys f w) IH).
Qed.

(** ** Explicit close *)

(** C6. Explicit close is idempotent.  On an instance with no file open,
    [Close] returns no error, leaves receiver and host as they were and
    produces no event (so no hook runs and no host call is made); and after
    any [Close], whatever it returned, a second [Close] is such a no-op. *)
Theorem Close_idempotent (s : Sys) :
  (file (self s) = None -> Close host s = (None, s, [])) /\
  (forall r s1 l, Close host s = (r, s1, l) -> Close host s1 = (None, s1, [])).
Proof.
  split.
  - apply close_nil.
  - intros r s1 l Hc. apply close_nil.
    pose proof (close_file_nil false s) as Hn.
    unfold Close in Hc. rewrite Hc in Hn. exact Hn.
Qed.

(** ** Explicit flush *)

(** C7. With no file open, [Flush] returns an error (the [os.ErrInvalid] of
    a nil file: the precondition failure) and performs no sync: no event is
    produced, and receiver and host are as they were. *)
Theorem Flush_no_file (s : Sys) :
  file (self s) = None ->
  Flush host s = (Some ErrInvalid, s, []).
Proof.
  intros Hnil. unfold Flush, File_Sync. unfold_monad. rewrite Hnil.
  reflexivity.
Qed.

(** C10. [Flush] assigns no field of the receiver, whatever the clock
    reads: [day], [path], [file] and [lastWritePos] are as before.  It does
    not read the clock, and its only possible host call is one sync. *)
Theorem Flush_frame (s : Sys) :
  let '(_, s', l) := Flush host s in
  self s' = self s /\
  day (self s') = day (self s) /\ path (self s') = path (self s) /\
  file (self s') = file (self s) /\
  lastWritePos (self s') = lastWritePos (self s) /\
  filter is_now l = [] /\ filter (fun e => negb (is_sync e)) l = [].
Proof.
  destruct s as [f w]. unfold Flush, File_Sync. unfold_monad.
  destruct (file f) as [h|] eqn:Ef; unfold_monad; break_host;
    repeat split; exact Ef.
Qed.

(** ** Path resolution *)

(** C8. When a path generator is configured, [open] takes the path from
    the generator applied to the current time, and the format string is
    ignored: running [open] with any other format string gives the same
    result, events and host, and the same receiver up to that field. *)
Theorem open_generator_precedence (s : Sys) (g : Time -> string) (layout : string) :
  pathGenerator (self s) = Some g ->
  let t := fst (time_Now host (Location_ (self s)) (world s)) in
  let '(r, s', l) := open host s in
  path (self s') = g t /\
  open host (mkSys (set_pathFormat layout (self s)) (world s))
  = (r, mkSys (set_pathFormat layout (self s')) (world s'), l).
Proof.
  intros Hg. destruct s as [f w]. cbn [self world] in *.
  unfold open, File_Seek. unfold_monad. rewrite Hg.
  destruct (time_Now host (Location_ f) w) as [t w1] eqn:Enow.
  unfold_monad. break_host; try (split; reflexivity).
  all: destruct (onOpen f) as [k|], (noHooks f); unfold_monad;
    split; reflexivity.
Qed.

(** ** The rotation bucket *)

(** C9. The bucket is the day of the year alone.  On an instance with a
    file open, a write at a time whose day of the year equals the recorded
    [day] keeps handle, path and bucket, closes nothing, opens nothing and
    calls no hook: after reading the clock it only seeks, writes and syncs
    on the handle it had.  Nothing else of the time is looked at, so this
    holds when its year or month differ from those of the opening. *)
Theorem write_same_day (d : list Byte.byte) (flush : bool) (s : Sys) (h : Handle) :
  file (self s) = Some h ->
  YearDay (fst (time_Now host (Location_ (self s)) (world s))) = day (self s) ->
  let '(_, s', l) := write host d flush s in
  file (self s') = Some h /\
  path (self s') = path (self s) /\
  day (self s') = day (self s) /\
  filter is_close l = [] /\ filter is_open l = [] /\ hooks l = [] /\
  exists t rest,
    l = EvNow (Location_ (self s)) t :: rest /\ forallb (targets h) rest = true.
Proof.
  intros Hopen Hday.
  destruct (time_Now host (Location_ (self s)) (world s)) as [t w1] eqn:Enow.
  cbn [fst] in Hday.
  pose proof (write_after_reopen d flush s) as Hw.
  rewrite (reopen_same_day s t w1 Enow Hday) in Hw.
  destruct Hw as (r & pos & w' & l2 & -> & Hio). cbn [self world] in *.
  rewrite Hopen in Hio.
  destruct (io_only _ _ Hio) as (I1 & I2 & I3 & _).
  cbn. unfold hooks in *. rewrite I1, I2, I3.
  repeat split; try assumption.
  exists t, l2. split; [reflexivity | exact Hio].
Qed.

(** ** Construction *)

(** C5. A successful [New] makes exactly one probe: it reads the clock
    (once for the rotation check, once in [open]), creates the parent
    directories of the resolved path, opens that path create-if-absent,
    write-only and without truncation, seeks to its end and closes it, and
    does nothing else.  No hook runs, and the instance returned has no file
    open, no bucket, hooks enabled again, and the probed path as [path]. *)
Theorem New_probe (opts : list (option_ H)) (w w' : H) (f : File) (evs : list Event) :
  Forall exported opts ->
  New host opts w = (inl f, w', evs) ->
  let f0 := configure opts in
  let loc := Location_ f0 in
  let flag := Z.lor O_CREATE O_WRONLY in
  exists t1 t2 h pos,
    let p := resolve f0 t2 in
    evs = [EvNow loc t1; EvNow loc t2;
           EvMkdirAll (filepath_Dir host p) 493 None;
           EvOpenFile p flag 420 (inl h);
           EvSeek h 0 SeekEnd (inl pos);
           EvClose h None] /\
    Z.land flag O_CREATE = O_CREATE /\ Z.land flag 3 = O_WRONLY /\
    Z.land flag O_TRUNC = 0 /\
    hooks evs = [] /\
    file f = None /\ day f = 0 /\ noHooks f = false /\ f = set_path p f0.
Proof.
  intros Hex HNew f0 loc flag.
  pose proof (configure_pristine opts Hex) as (Hd & Hf & Hn & _).
  destruct (New_cases opts w Hex) as (t1 & t2 & w2 & Hc).
  cbv zeta in Hc. fold f0 loc in Hc.
  destruct Hc as [(e & Hc) | [(e & Hc) | [(h & e & Hc) | [(h & pos & e & Hc)
                 | (h & pos & Hc)]]]];
    rewrite Hc in HNew; inversion HNew; subst.
  exists t1, t2, h, pos. cbv zeta.
  repeat split; assumption.
Qed.


(** ** Rotation *)


End Properties.

(** * Further properties of the methods *)

Section More.

Context {H : Type} (host : Host H).

Local Abbreviation File := (File H).
Local Abbreviation Sys := (Sys H).
Local Abbreviation resolve := (resolve host).

(** *** The tail of write *)

(** What [write] does once the rotation check has returned. *)
Lemma write_cases (d : list Byte.byte) (flush : bool) (s : Sys) :
  let '(err, s1, l1) := reopenIfNeeded host s in
  match err with
  | Some e => write host d flush s = ((0, 0, Some e), s1, l1)
  | None =>
      match file (self s1) with
      | None =>
          write host d flush s =
            ((0, 0, Some ErrInvalid),
             mkSys (set_lastWritePos 0 (self s1)) (world s1), l1)
      | Some h =>
          exists w',
            (exists e,
                write host d flush s =
                  ((0, 0, Some e), mkSys (set_lastWritePos 0 (self s1)) w',
                   l1 ++ [EvSeek h 0 SeekCurrent (inr e)]))
            \/ (exists pos n e,
                write host d flush s =
                  ((0, n, Some e), mkSys (set_lastWritePos pos (self s1)) w',
                   l1 ++ [EvSeek h 0 SeekCurrent (inl pos);
                          EvWrite h d n (Some e)]))
            \/ (exists pos n ry,
                write host d flush s =
                  ((pos, n, ry), mkSys (set_lastWritePos pos (self s1)) w',
                   l1 ++ [EvSeek h 0 SeekCurrent (inl pos); EvWrite h d n None]
                      ++ (if flush then [EvSync h ry] else [])) /\
                (flush = false -> ry = None))
      end
  end.
Proof.
  unfold write. unfold_monad.
  destruct (reopenIfNeeded host s) as [[[e|] [f1 w1]] l1];
    [now rewrite app_nil_r|].
  unfold File_Seek, File_Write, File_Sync. cbn [self world].
  destruct (file f1) as [h|] eqn:Ef; unfold_monad; rewrite ?Ef;
    [|now rewrite app_nil_r].
  break_host.
  - destruct flush; unfold_monad; rewrite ?Ef; unfold_monad.
    + eexists. right; left. now exists rs, n, rw.
    + eexists. right; left. now exists rs, n, rw.
  - destruct flush; unfold_monad; rewrite ?Ef; unfold_monad; break_host.
    + eexists. right; right. exists rs, n, (Some ry).
      split; [reflexivity | discriminate].
    + eexists. right; right. exists rs, n, None.
      split; [reflexivity | discriminate].
    + eexists. right; right. exists rs, n, None.
      split; [reflexivity | reflexivity].
  - eexists. left. now exists rs.
Qed.

(** *** The rotation check makes no call on the written handle *)

Lemma no_io_app (l1 l2 : list Event) :
  no_io (l1 ++ l2) = no_io l1 && no_io l2.
Proof. apply forallb_app. Qed.

Lemma no_io_fired {A} (k : option A) (b : bool) (ev : Event) :
  is_io ev = false -> no_io (fired k b ev) = true.
Proof.
  intros Hev. unfold fired, no_io.
  destruct (isSome k && b); cbn; [now rewrite Hev | reflexivity].
Qed.

Lemma no_io_facts (l : list Event) :
  no_io l = true ->
  filter is_io l = [] /\ filter is_write l = [] /\ filter is_sync l = [] /\
  written_ok l = false /\ sync_failed l = false /\ bytes_written l = 0.
Proof.
  unfold no_io, written_ok, sync_failed, bytes_written.
  induction l as [|e l IH]; cbn; [tauto|].
  intros Hall. apply andb_prop in Hall as [He Hl].
  destruct (IH Hl) as (I1 & I2 & I3 & I4 & I5 & I6).
  rewrite I2 in I6 |- *.
  destruct e; try discriminate; cbn in He |- *;
    try (destruct wh; try discriminate); cbn; repeat split; assumption.
Qed.

Lemma close_no_io (b : bool) (s : Sys) : no_io (snd (close host b s)) = true.
Proof.
  destruct (file (self s)) as [h|] eqn:Ef.
  - destruct (close_open host b s h Ef) as (rc & w' & ->). cbn [snd].
    rewrite !no_io_app, !no_io_fired by reflexivity. reflexivity.
  - rewrite close_nil by exact Ef. reflexivity.
Qed.

Lemma open_no_io (s : Sys) : no_io (snd (open host s)) = true.
Proof.
  destruct (open_cases host s) as (t & w1 & _ & Hc). cbv zeta in Hc.
  destruct Hc as [(e & w' & ->) | [(e & w' & ->) | [(h & e & w' & ->)
                 | (h & pos & w' & ->)]]]; try reflexivity.
  cbn [snd]. rewrite no_io_app, no_io_fired by reflexivity. reflexivity.
Qed.

Lemma reopen_no_io (s : Sys) : no_io (snd (reopenIfNeeded host s)) = true.
Proof.
  destruct (time_Now host (Location_ (self s)) (world s)) as [t w1] eqn:Enow.
  destruct (Z.eq_dec (YearDay t) (day (self s))) as [Heq|Hne].
  - rewrite (reopen_same_day host s t w1 Enow Heq). reflexivity.
  - rewrite (reopen_other_day host s t w1 Enow Hne). cbv zeta.
    pose proof (close_no_io true (mkSys (self s) w1)) as Hc.
    destruct (close host true (mkSys (self s) w1)) as [[[e|] s1] l1];
      cbn [fst snd] in *; [exact Hc|].
    pose proof (open_no_io s1) as Ho.
    destruct (open host s1) as [[r s2] l2]. cbn [fst snd] in *.
    change (no_io ([EvNow (Location_ (self s)) t] ++ l1 ++ l2) = true).
    rewrite !no_io_app, Hc, Ho. reflexivity.
Qed.

(** *** What the rotation check assigns *)

Lemma close_frame (b : bool) (s : Sys) :
  let f' := self (snd (fst (close host b s))) in
  same_config (self s) f' /\ lastWritePos f' = lastWritePos (self s) /\
  path f' = path (self s).
Proof.
  destruct (file (self s)) as [h|] eqn:Ef.
  - destruct (close_open host b s h Ef) as (rc & w' & ->). cbn.
    repeat split.
  - rewrite close_nil by exact Ef. cbn. repeat split.
Qed.

Lemma open_frame (s : Sys) :
  let f' := self (snd (fst (open host s))) in
  same_config (self s) f' /\ lastWritePos f' = lastWritePos (self s).
Proof.
  destruct (open_cases host s) as (t & w1 & _ & Hc). cbv zeta in Hc.
  destruct Hc as [(e & w' & ->) | [(e & w' & ->) | [(h & e & w' & ->)
                 | (h & pos & w' & ->)]]]; cbn; repeat split.
Qed.

Lemma same_config_trans (f g k : File) :
  same_config f g -> same_config g k -> same_config f k.
Proof.
  unfold same_config.
  intros (A1 & A2 & A3 & A4 & A5 & A6 & A7) (B1 & B2 & B3 & B4 & B5 & B6 & B7).
  repeat split; congruence.
Qed.

Lemma reopen_frame (s : Sys) :
  let f' := self (snd (fst (reopenIfNeeded host s))) in
  same_config (self s) f' /\ lastWritePos f' = lastWritePos (self s).
Proof.
  destruct (time_Now host (Location_ (self s)) (world s)) as [t w1] eqn:Enow.
  destruct (Z.eq_dec (YearDay t) (day (self s))) as [Heq|Hne].
  - rewrite (reopen_same_day host s t w1 Enow Heq). cbn. repeat split.
  - rewrite (reopen_other_day host s t w1 Enow Hne). cbv zeta.
    pose proof (close_frame true (mkSys (self s) w1)) as (Hc & Hcl & _).
    destruct (close host true (mkSys (self s) w1)) as [[[e|] s1] l1];
      cbn [fst snd self] in *; [split; assumption|].
    pose proof (open_frame s1) as (Ho & Hol).
    destruct (open host s1) as [[r s2] l2]. cbn [fst snd] in *.
    split; [exact (same_config_trans _ _ _ Hc Ho) | congruence].
Qed.

(** ** Explicit close of an open file *)

(** X1. [Close] on an instance with a file open calls
    [beforeClose(path, false)] if registered, closes the handle once and
    returns the host's result, and calls [onClose(path, false)] only if
    that result is no error.  In both cases the receiver ends with no
    handle and no bucket, and keeps its path. *)
Theorem Close_open_file (s : Sys) (h : Handle) :
  file (self s) = Some h ->
  noHooks (self s) = false ->
  exists rc w',
    Close host s =
      (rc, mkSys (set_day 0 (set_file None (self s))) w',
       fired (beforeClose (self s)) true (EvBeforeClose (path (self s)) false)
       ++ [EvClose h rc]
       ++ fired (onClose (self s)) (isNil rc) (EvOnClose (path (self s)) false)).
Proof.
  intros Hopen Hnh.
  destruct (close_open host false s h Hopen) as (rc & w' & Hc).
  rewrite Hnh in Hc. cbn [negb] in Hc. rewrite andb_true_r in Hc.
  exists rc, w'. exact Hc.
Qed.

(** ** Errors of the rotation check *)

(** X2. When the rotation check of a write returns an error, the write
    returns offset 0, count 0 and that error; it makes no seek, write or
    sync call on any handle, and [lastWritePos] is as before. *)
Theorem write_rotation_error (d : list Byte.byte) (flush : bool) (s : Sys)
    (e : error) :
  fst (fst (reopenIfNeeded host s)) = Some e ->
  let '(r, s', l) := write host d flush s in
  r = (0, 0, Some e) /\
  filter is_io l = [] /\
  lastWritePos (self s') = lastWritePos (self s).
Proof.
  intros Herr.
  pose proof (write_cases d flush s) as Hw.
  pose proof (reopen_no_io s) as Hio.
  pose proof (reopen_frame s) as (_ & Hl).
  destruct (reopenIfNeeded host s) as [[err s1] l1]. cbn [fst snd] in *.
  subst err. rewrite Hw.
  destruct (no_io_facts l1 Hio) as (I1 & _).
  repeat split; assumption.
Qed.

(** ** Construction never calls a hook *)

(** X3. Whether it succeeds or fails, [New] with exported options calls no
    hook and makes no seek-to-current, write or sync call: the probe leaves
    the contents of the file alone. *)
Theorem New_calls_no_hook (opts : list (option_ H)) (w : H) :
  Forall exported opts ->
  hooks (snd (New host opts w)) = [] /\
  filter is_io (snd (New host opts w)) = [].
Proof.
  intros Hex.
  destruct (New_cases host opts w Hex) as (t1 & t2 & w2 & Hc).
  cbv zeta in Hc.
  destruct Hc as [(e & ->) | [(e & ->) | [(h & e & ->) | [(h & pos & e & ->)
                 | (h & pos & ->)]]]]; split; reflexivity.
Qed.

(** ** The configuration is fixed after construction *)

(** X4. No exported method assigns the naming strategy, the location, the
    hooks or the hook switch: after any call they are as before. *)
Theorem perform_keeps_configuration (c : Call) (s : Sys) :
  same_config (self s) (self (fst (perform host c s))).
Proof.
  destruct c as [d|d flush| | |]; unfold perform.
  - pose proof (write_after_reopen host d false s) as Hw.
    pose proof (reopen_frame s) as (Hr & _).
    unfold Write, bind, ret.
    destruct (reopenIfNeeded host s) as [[[e|] s1] l1]; cbn [fst snd] in *.
    + rewrite Hw. exact Hr.
    + destruct Hw as (r & pos & w' & l2 & -> & _).
      destruct r as [[p n] err]. exact Hr.
  - pose proof (write_after_reopen host d flush s) as Hw.
    pose proof (reopen_frame s) as (Hr & _).
    unfold Write2, bind, ret, this.
    destruct (reopenIfNeeded host s) as [[[e|] s1] l1]; cbn [fst snd] in *.
    + rewrite Hw. exact Hr.
    + destruct Hw as (r & pos & w' & l2 & -> & _).
      destruct r as [[p n] err]. exact Hr.
  - pose proof (close_frame false s) as (Hc & _). unfold Close.
    destruct (close host false s) as [[r s1] l1]. exact Hc.
  - pose proof (Flush_self host s) as Hf.
    destruct (Flush host s) as [[r s1] l1]. cbn [fst snd] in *.
    rewrite Hf. repeat split.
  - repeat split.
Qed.

(** ** An open file has a bucket *)

(** X5. In every instance reached from a successful [New] by calls of the
    exported methods, hooks are enabled, and whenever a file is open the
    recorded day is not zero. *)
Theorem reachable_open_file_has_bucket (f : File) :
  reachable host f ->
  noHooks f = false /\ (file f <> None -> day f <> 0).
Proof. intros Hr. exact (reachable_sound host f Hr). Qed.

(** ** What a write reports *)

Lemma write_report (d : list Byte.byte) (flush : bool) (s : Sys) :
  let '(pos, n, err, s', l) := write host d flush s in
  n = bytes_written l /\
  pos = (if written_ok l then lastWritePos (self s') else 0) /\
  (err = None <-> written_ok l = true /\ sync_failed l = false) /\
  (flush = false -> filter is_sync l = []).
Proof.
  pose proof (write_cases d flush s) as Hw.
  pose proof (reopen_no_io s) as Hio.
  destruct (reopenIfNeeded host s) as [[[e|] s1] l1]; cbn [fst snd] in *;
    destruct (no_io_facts l1 Hio) as (I1 & I2 & I3 & I4 & I5 & I6).
  - rewrite Hw. rewrite I4, I6, I3.
    repeat split; try discriminate; intros [? ?]; discriminate.
  - destruct (file (self s1)) as [h|].
    + destruct Hw as (w' & [(e & ->) | [(pos & n & e & ->)
                              | (pos & n & ry & -> & Hry)]]);
        unfold bytes_written, written_ok, sync_failed in *;
        rewrite ?filter_app, ?existsb_app, ?I2, ?I3, ?I4, ?I5; cbn.
      * repeat split; try discriminate; intros [? ?]; discriminate.
      * repeat split; try discriminate; intros [? ?]; discriminate.
      * destruct flush; cbn.
        -- destruct ry as [e|]; cbn; repeat split; try discriminate;
             intros [? ?]; discriminate.
        -- rewrite (Hry eq_refl). repeat split.
    + rewrite Hw. rewrite I4, I6, I3.
      repeat split; try discriminate; intros [? ?]; discriminate.
Qed.

(** X6. [Write2] reports the receiver's path as it is after the call, and
    the byte count of the host's write (0 if the host's write was never
    reached).  The offset it reports is the recorded [lastWritePos] exactly
    when the host's write succeeded, also when the sync after it failed,
    and 0 otherwise.  It returns no error exactly when the host's write
    succeeded and no sync failed. *)
Theorem Write2_report (d : list Byte.byte) (flush : bool) (s : Sys) :
  let '(p, pos, n, err, s', l) := Write2 host d flush s in
  p = path (self s') /\
  n = bytes_written l /\
  pos = (if written_ok l then lastWritePos (self s') else 0) /\
  (err = None <-> written_ok l = true /\ sync_failed l = false).
Proof.
  pose proof (write_report d flush s) as Hw.
  unfold Write2, bind, ret, this.
  destruct (write host d flush s) as [[[[pos n] err] s1] l1].
  cbn [self]. rewrite !app_nil_r.
  destruct Hw as (Hn & Hp & He & _).
  split; [reflexivity|]. split; [exact Hn|]. split; [exact Hp | exact He].
Qed.

(** X7. [Write] is [Write2] without flush: it leaves the same receiver and
    host, makes the same calls, returns the same count and error, and
    never syncs. *)
Theorem Write_as_Write2 (d : list Byte.byte) (s : Sys) :
  Write host d s =
    (let '(_, _, n, err, s', l) := Write2 host d false s in (n, err, s', l)) /\
  filter is_sync (snd (Write host d s)) = [].
Proof.
  pose proof (write_report d false s) as Hw.
  unfold Write, Write2, bind, ret, this.
  destruct (write host d false s) as [[[[pos n] err] s1] l1].
  cbn [self snd]. rewrite !app_nil_r.
  destruct Hw as (_ & _ & _ & Hs). destruct s1 as [f1 w1].
  split; [reflexivity | exact (Hs eq_refl)].
Qed.

(** ** Writes that open a file *)

(** X8. A write on an instance with no file and no bucket (as [New] and
    [Close] leave it) always tries to open: it reads the clock twice and
    asks for the parent directory of the path resolved at the second
    reading.  It closes nothing, and the only hook it can call is [onOpen]
    on that path, once open and seek-to-end have succeeded. *)
Theorem write_opens_when_closed (d : list Byte.byte) (flush : bool) (s : Sys) :
  file (self s) = None ->
  day (self s) = 0 ->
  let f := self s in
  let '(_, _, l) := write host d flush s in
  exists t1 t2 rm rest,
    l = EvNow (Location_ f) t1 :: EvNow (Location_ f) t2
        :: EvMkdirAll (filepath_Dir host (resolve f t2)) 493 rm :: rest /\
    filter is_close l = [] /\
    hooks l =
      (if opened_ok l
       then fired (onOpen f) (negb (noHooks f)) (EvOnOpen (resolve f t2))
       else []).
Proof.
  intros Hnil Hday. destruct s as [f w]. cbn [self world] in *. cbv zeta.
  destruct (time_Now host (Location_ f) w) as [t1 w1] eqn:Enow.
  pose proof (write_after_reopen host d flush (mkSys f w)) as Hw.
  rewrite (reopen_other_day host (mkSys f w) t1 w1 Enow) in Hw
    by (cbn; rewrite Hday; apply YearDay_nonzero).
  cbn [self world] in Hw. rewrite close_nil in Hw by exact Hnil.
  destruct (open_cases host (mkSys f w1)) as (t2 & w2 & _ & Ho).
  cbn [self world] in Ho. cbv zeta in Ho.
  destruct Ho as [(e & w' & Ho) | [(e & w' & Ho) | [(h & e & w' & Ho)
                 | (h & pos & w' & Ho)]]]; rewrite Ho in Hw.
  - rewrite Hw. exists t1, t2. do 2 eexists. repeat split.
  - rewrite Hw. exists t1, t2. do 2 eexists. repeat split.
  - rewrite Hw. exists t1, t2. do 2 eexists. repeat split.
  - destruct Hw as (r & pos' & w'' & l2 & -> & Hio).
    destruct (io_only _ _ Hio) as (I1 & I2 & I3 & I4 & I5 & I6 & I7).
    exists t1, t2. do 2 eexists.
    unfold hooks, opened_ok, fired in *.
    split; [reflexivity|].
    destruct (onOpen f), (noHooks f); cbn;
      rewrite ?filter_app, ?existsb_app, ?I1, ?I2; cbn; split; reflexivity.
Qed.

(** X9. Whenever a write opens a file and seeks to its end without error,
    the receiver afterwards holds the handle the host returned, and its
    path and bucket come from one and the same clock reading: the second
    of the two the write made. *)
Theorem write_after_successful_open (d : list Byte.byte) (flush : bool) (s : Sys) :
  let f := self s in
  let '(_, s', l) := write host d flush s in
  opened_ok l = true ->
  exists t1 t2 h',
    filter is_now l = [EvNow (Location_ f) t1; EvNow (Location_ f) t2] /\
    filter is_open l =
      [EvOpenFile (resolve f t2) (Z.lor O_CREATE O_WRONLY) 420 (inl h')] /\
    file (self s') = Some h' /\
    day (self s') = YearDay t2 /\
    path (self s') = resolve f t2.
Proof.
  destruct s as [f w]. cbn [self world]. cbv zeta.
  destruct (time_Now host (Location_ f) w) as [t1 w1] eqn:Enow.
  pose proof (write_after_reopen host d flush (mkSys f w)) as Hw.
  destruct (Z.eq_dec (YearDay t1) (day f)) as [Heq|Hne].
  { rewrite (reopen_same_day host (mkSys f w) t1 w1 Enow Heq) in Hw.
    destruct Hw as (r & pos & w' & l2 & -> & Hio).
    destruct (io_only _ _ Hio) as (_ & _ & _ & _ & _ & _ & I7).
    unfold opened_ok in *. cbn. rewrite I7. discriminate. }
  rewrite (reopen_other_day host (mkSys f w) t1 w1 Enow Hne) in Hw.
  cbn [self world] in Hw.
  assert (Hclose : exists rc w2 lc,
             close host true (mkSys f w1) =
               (rc, mkSys (set_day 0 (set_file None f)) w2, lc) /\
             opened_ok lc = false /\ filter is_now lc = [] /\
             filter is_open lc = [] \/
             close host true (mkSys f w1) = (None, mkSys f w1, [])).
  { destruct (file f) as [h|] eqn:Ef.
    - destruct (close_open host true (mkSys f w1) h Ef) as (rc & w2 & Hc).
      exists rc, w2. eexists. left. split; [exact Hc|].
      unfold fired, opened_ok. cbn [self].
      destruct (beforeClose f), (onClose f), (noHooks f), rc; cbn;
        repeat split.
    - exists None, w1, []. right. now apply close_nil. }
  destruct Hclose as (rc & w2 & lc & [(Hc & C1 & C2 & C3) | Hc]);
    rewrite Hc in Hw.
  - destruct rc as [e|].
    { rewrite Hw. unfold opened_ok in *. cbn. rewrite C1. discriminate. }
    destruct (open_cases host (mkSys (set_day 0 (set_file None f)) w2))
      as (t2 & w3 & _ & Ho).
    cbn [self world] in Ho. cbv zeta in Ho.
    destruct Ho as [(e & w' & Ho) | [(e & w' & Ho) | [(h & e & w' & Ho)
                   | (h & pos & w' & Ho)]]]; rewrite Ho in Hw.
    + rewrite Hw. unfold opened_ok in *. cbn.
      rewrite existsb_app, C1. discriminate.
    + rewrite Hw. unfold opened_ok in *. cbn.
      rewrite existsb_app, C1. discriminate.
    + rewrite Hw. unfold opened_ok in *. cbn.
      rewrite existsb_app, C1. discriminate.
    + destruct Hw as (r & pos' & w'' & l2 & -> & Hio).
      destruct (io_only _ _ Hio) as (I1 & I2 & I3 & I4 & I5 & I6 & I7).
      intros _. exists t1, t2, h. unfold fired.
      cbn [self onOpen noHooks set_day set_file].
      destruct (isSome (onOpen f) && negb (noHooks f)); cbn;
        rewrite ?filter_app, ?C2, ?C3, ?I3, ?I4; cbn;
        rewrite ?filter_app, ?C2, ?C3, ?I3, ?I4; repeat split.
  - destruct (open_cases host (mkSys f w1)) as (t2 & w3 & _ & Ho).
    cbn [self world] in Ho. cbv zeta in Ho.
    destruct Ho as [(e & w' & Ho) | [(e & w' & Ho) | [(h & e & w' & Ho)
                   | (h & pos & w' & Ho)]]]; rewrite Ho in Hw.
    + rewrite Hw. discriminate.
    + rewrite Hw. discriminate.
    + rewrite Hw. discriminate.
    + destruct Hw as (r & pos' & w'' & l2 & -> & Hio).
      destruct (io_only _ _ Hio) as (I1 & I2 & I3 & I4 & I5 & I6 & I7).
      intros _. exists t1, t2, h. unfold fired.
      destruct (isSome (onOpen f) && negb (noHooks f)); cbn;
        rewrite ?filter_app, ?I3, ?I4; cbn; repeat split.
Qed.

(** ** The other constructors *)

(** X10. A successful [NewFile] returns an instance that rotates in UTC on
    the given format, with the given [onClose] as its only hook, no file
    open, and as path the format applied to the probe's clock reading. *)
Theorem NewFile_instance (fmt : string)
    (k : option (string -> bool -> H -> H)) (w w' : H) (f : File)
    (evs : list Event) :
  NewFile host fmt k w = (inl f, w', evs) ->
  exists t1 t2,
    firstn 2 evs = [EvNow UTC t1; EvNow UTC t2] /\
    f = mkFile None fmt UTC 0 (time_Format host t2 fmt) None false
               None k None 0.
Proof.
  unfold NewFile. intros HNew.
  set (opts := WithPathFormat fmt ::
               match k with Some k' => [WithOnClose (Some k')] | None => [] end)
    in *.
  assert (Hex : Forall exported opts)
    by (subst opts; destruct k; repeat constructor).
  destruct (New_cases host opts w Hex) as (t1 & t2 & w2 & Hc).
  cbv zeta in Hc.
  destruct Hc as [(e & Hc) | [(e & Hc) | [(h & e & Hc) | [(h & pos & e & Hc)
                 | (h & pos & Hc)]]]];
    rewrite Hc in HNew; inversion HNew; subst f w' evs.
  exists t1, t2. subst opts. destruct k; split; reflexivity.
Qed.

(** X11. A successful [NewFileWithPathGenerator] returns an instance that
    rotates in UTC with the given [onClose] as its only hook and no file
    open.  Its path is the generator applied to the probe's clock reading;
    with a nil generator it is the empty format applied to that reading. *)
Theorem NewFileWithPathGenerator_instance (g : option (Time -> string))
    (k : option (string -> bool -> H -> H)) (w w' : H) (f : File)
    (evs : list Event) :
  NewFileWithPathGenerator host g k w = (inl f, w', evs) ->
  exists t1 t2,
    firstn 2 evs = [EvNow UTC t1; EvNow UTC t2] /\
    f = mkFile g EmptyString UTC 0
               (match g with
                | Some gen => gen t2
                | None => time_Format host t2 EmptyString
                end)
               None false None k None 0.
Proof.
  unfold NewFileWithPathGenerator. intros HNew.
  set (opts := WithPathGenerator g ::
               match k with Some k' => [WithOnClose (Some k')] | None => [] end)
    in *.
  assert (Hex : Forall exported opts)
    by (subst opts; destruct k; repeat constructor).
  destruct (New_cases host opts w Hex) as (t1 & t2 & w2 & Hc).
  cbv zeta in Hc.
  destruct Hc as [(e & Hc) | [(e & Hc) | [(h & e & Hc) | [(h & pos & e & Hc)
                 | (h & pos & Hc)]]]];
    rewrite Hc in HNew; inversion HNew; subst f w' evs.
  exists t1, t2. subst opts. destruct k, g; split; reflexivity.
Qed.

(** X12. The unexported [newFile] agrees with [New]: for any format,
    generator and [onClose] it makes the same host calls, calls no hook,
    and returns the same error or the same instance as [New] with the three
    corresponding options.  Assigning [onClose] after the probe has the
    effect of the hook switch. *)
Theorem newFile_agrees_with_New (fmt : string) (g : option (Time -> string))
    (k : option (string -> bool -> H -> H)) (w : H) :
  newFile host fmt g k w =
  New host [WithPathGenerator g; WithPathFormat fmt; WithOnClose k] w.
Proof.
  unfold newFile, New, probe, reopenIfNeeded, close, open, configure,
    File_Close, File_Seek, YearDay.
  unfold_monad. break_host; try reflexivity.
  all: destruct g as [gen|]; unfold_monad; break_host; try reflexivity.
  all: destruct k as [kc|]; unfold_monad; break_host; reflexivity.
Qed.

End More.

(** * Runs on the simulated host *)

Module Run.
Import Sim Scenario.

Lemma opts_hooks_exported : Forall exported opts_hooks.
Proof. repeat constructor. Qed.


Example New_started :
  New host opts_hooks (fresh [jan15]) =
    (inl started,
     mkDisk [jan15] [("logs/15.txt", [])] [] 4%nat [] [] false false,
     [EvNow UTC jan15; EvNow UTC jan15; EvMkdirAll "logs" 493 None;
      EvOpenFile "logs/15.txt" 65 420 (inl 3%nat);
      EvSeek 3%nat 0 SeekEnd (inl 0); EvClose 3%nat None]).
Proof. reflexivity. Qed.

Example first_write_opens :
  write host [] false (mkSys started
    (mkDisk [jan15] [("logs/15.txt", [])] [] 4%nat [] [] false false)) =
    ((0, 0, None), mkSys opened (disk_after [jan15]),
     [EvNow UTC jan15; EvNow UTC jan15; EvMkdirAll "logs" 493 None;
      EvOpenFile "logs/15.txt" 65 420 (inl 4%nat);
      EvSeek 4%nat 0 SeekEnd (inl 0); EvOnOpen "logs/15.txt";
      EvSeek 4%nat 0 SeekCurrent (inl 0); EvWrite 4%nat [] 0 None]).
Proof. reflexivity. Qed.

(** ** A failed rotation *)

(** C1. The code at a failing input: the instance started on the 15th
    gets its first write on the 16th, when the host refuses to open the
    file.  The write returns the host's error and zero bytes, but [open] has
    already assigned [path] and [day]: the receiver is left with the new
    path, bucket 16 and no handle.  The next write on the 16th, on a disk
    where everything would succeed, therefore finds the bucket unchanged,
    runs no rotation (its only event is the clock reading), and fails with
    [os.ErrInvalid] on the nil handle. *)
Theorem failed_rotation_is_not_retried :
  let s := mkSys started (disk_denied [jan16]) in
  let '(r1, s1, l1) := write host [Byte.x61] false s in
  let '(r2, s2, l2) :=
    write host [Byte.x61] false (mkSys (self s1) (fresh [jan16])) in
  r1 = (0, 0, Some EACCES) /\
  l1 = [EvNow UTC jan16; EvNow UTC jan16; EvMkdirAll "logs" 493 None;
        EvOpenFile "logs/16.txt" 65 420 (inr EACCES)] /\
  file (self s1) = None /\
  day (self s1) = 16 /\
  path (self s) = "logs/15.txt" /\ path (self s1) = "logs/16.txt" /\
  r2 = (0, 0, Some ErrInvalid) /\
  l2 = [EvNow UTC jan16] /\
  file (self s2) = None.
Proof. vm_compute. repeat split. Qed.

(** C2. The code at a failing input: the instance reached by a successful
    [New] followed by a write whose rotation fails at [OpenFile] has a
    non-zero [day] and no file handle. *)
Theorem reachable_bucket_without_handle :
  let f := self (fst (perform host (CallWrite [Byte.x61])
                        (mkSys started (disk_denied [jan16])))) in
  reachable host f /\ day f = 16 /\ file f = None.
Proof.
  cbv zeta. split; [|split; reflexivity].
  apply reach_call.
  apply (reach_New host opts_hooks (fresh [jan15]) started _ _
           opts_hooks_exported New_started).
Qed.

(** ** Construction *)



Lemma New_probe_witness :
  Forall exported opts_hooks /\
  New host opts_hooks (fresh [jan15]) =
    (inl started,
     mkDisk [jan15] [("logs/15.txt", [])] [] 4%nat [] [] false false,
     [EvNow UTC jan15; EvNow UTC jan15; EvMkdirAll "logs" 493 None;
      EvOpenFile "logs/15.txt" 65 420 (inl 3%nat);
      EvSeek 3%nat 0 SeekEnd (inl 0); EvClose 3%nat None]) /\
  file started = None /\ day started = 0 /\ noHooks started = false.
Proof.
  split; [exact opts_hooks_exported|]. split; [reflexivity|].
  destruct (New_probe host opts_hooks (fresh [jan15]) _ started _
              opts_hooks_exported New_started)
    as (t1 & t2 & h & pos & _ & _ & _ & _ & _ & Hf & Hd & Hn & _).
  exact (conj Hf (conj Hd Hn)).
Defined.

(** ** Close and flush *)

Lemma Close_idempotent_witness :
  file started = None /\
  Close host (mkSys started (fresh [jan15])) =
    (None, mkSys started (fresh [jan15]), []) /\
  Close host (mkSys opened (disk_after [jan15])) =
    (None, mkSys (set_day 0 (set_file None opened))
             (mkDisk [jan15] [("logs/15.txt", [])] [] 5%nat [] [] false false),
     [EvBeforeClose "logs/15.txt" false; EvClose 4%nat None;
      EvOnClose "logs/15.txt" false]) /\
  Close host (mkSys (set_day 0 (set_file None opened))
                (mkDisk [jan15] [("logs/15.txt", [])] [] 5%nat [] [] false false))
  = (None, mkSys (set_day 0 (set_file None opened))
             (mkDisk [jan15] [("logs/15.txt", [])] [] 5%nat [] [] false false),
     []).
Proof.
  split; [reflexivity|]. split; [|split; [reflexivity|]].
  - exact (proj1 (Close_idempotent host (mkSys started (fresh [jan15])))
             eq_refl).
  - exact (proj2 (Close_idempotent host (mkSys opened (disk_after [jan15])))
             _ _ _ eq_refl).
Defined.

Lemma Flush_no_file_witness :
  file started = None /\
  Flush host (mkSys started (fresh [jan15])) =
    (Some ErrInvalid, mkSys started (fresh [jan15]), []).
Proof.
  split; [reflexivity|].
  exact (Flush_no_file host (mkSys started (fresh [jan15])) eq_refl).
Defined.

(** ** Path resolution *)

Lemma open_generator_precedence_witness :
  let s := mkSys (configure opts_both) (fresh [jan15]) in
  pathGenerator (self s) = Some daily /\
  pathFormat (self s) = "x.log" /\
  let t := fst (time_Now host (Location_ (self s)) (world s)) in
  let '(r, s', l) := open host s in
  path (self s') = daily t /\
  open host (mkSys (set_pathFormat "y.log" (self s)) (world s))
  = (r, mkSys (set_pathFormat "y.log" (self s')) (world s'), l).
Proof.
  cbv zeta. split; [reflexivity|]. split; [reflexivity|].
  exact (open_generator_precedence host
           (mkSys (configure opts_both) (fresh [jan15])) daily "y.log" eq_refl).
Defined.

(** ** Rotation *)

(** The file opened on the 15th of 2024 is written to, without rotation,
    on the 15th of 2025. *)
Lemma write_same_day_witness :
  let s := mkSys opened (disk_after [jan15_next_year]) in
  file (self s) = Some 4%nat /\
  YearDay (fst (time_Now host (Location_ (self s)) (world s))) = day (self s) /\
  t_year (fst (time_Now host (Location_ (self s)) (world s))) = 2025 /\
  t_year jan15 = 2024 /\
  let '(_, s', l) := write host [Byte.x61] true s in
  file (self s') = Some 4%nat /\
  path (self s') = path (self s) /\
  day (self s') = day (self s) /\
  filter is_close l = [] /\ filter is_open l = [] /\ hooks l = [] /\
  exists t rest,
    l = EvNow (Location_ (self s)) t :: rest /\
    forallb (targets 4%nat) rest = true.
Proof.
  cbv zeta. do 4 (split; [reflexivity|]).
  exact (write_same_day host [Byte.x61] true
           (mkSys opened (disk_after [jan15_next_year])) 4%nat eq_refl eq_refl).
Defined.



(** With neither naming strategy the probe asks the host for the empty
    path, and fails with the host's error. *)
Example New_neither_configured :
  New host [] (fresh [jan15]) =
    (inr ENOENT, fresh [jan15],
     [EvNow UTC jan15; EvNow UTC jan15; EvMkdirAll "." 493 None;
      EvOpenFile EmptyString 65 420 (inr ENOENT)]).
Proof. reflexivity. Qed.

End Run.

(** * Further runs on the simulated host *)

Module RunMore.
Import Sim Scenario.

Lemma started_reachable : reachable host started.
Proof.
  exact (reach_New host opts_hooks (fresh [jan15]) started _ _
           Run.opts_hooks_exported Run.New_started).
Qed.

Lemma opened_reachable : reachable host opened.
Proof.
  exact (reach_call host started (CallWrite [])
           (mkDisk [jan15] [("logs/15.txt", [])] [] 4%nat [] [] false false)
           started_reachable).
Qed.

Lemma Close_open_file_witness :
  let s := mkSys opened (disk_after [jan15]) in
  file (self s) = Some 4%nat /\
  noHooks (self s) = false /\
  exists rc w',
    Close host s =
      (rc, mkSys (set_day 0 (set_file None (self s))) w',
       fired (beforeClose (self s)) true (EvBeforeClose (path (self s)) false)
       ++ [EvClose 4%nat rc]
       ++ fired (onClose (self s)) (isNil rc) (EvOnClose (path (self s)) false)).
Proof.
  cbv zeta. split; [reflexivity|]. split; [reflexivity|].
  exact (Close_open_file host (mkSys opened (disk_after [jan15])) 4%nat
           eq_refl eq_refl).
Defined.

Lemma write_rotation_error_witness :
  let s := mkSys opened (disk_close_fails [jan16]) in
  fst (fst (reopenIfNeeded host s)) = Some EIO /\
  let '(r, s', l) := write host [Byte.x61] true s in
  r = (0, 0, Some EIO) /\
  filter is_io l = [] /\
  lastWritePos (self s') = lastWritePos (self s).
Proof.
  cbv zeta. split; [reflexivity|].
  exact (write_rotation_error host [Byte.x61] true
           (mkSys opened (disk_close_fails [jan16])) EIO eq_refl).
Defined.

Lemma New_calls_no_hook_witness :
  Forall exported opts_hooks /\
  hooks (snd (New host opts_hooks (fresh [jan15]))) = [] /\
  filter is_io (snd (New host opts_hooks (fresh [jan15]))) = [].
Proof.
  split; [exact Run.opts_hooks_exported|].
  exact (New_calls_no_hook host opts_hooks (fresh [jan15])
           Run.opts_hooks_exported).
Defined.

Lemma reachable_open_file_has_bucket_witness :
  reachable host opened /\
  noHooks opened = false /\ (file opened <> None -> day opened <> 0).
Proof.
  split; [exact opened_reachable|].
  exact (reachable_open_file_has_bucket host opened opened_reachable).
Defined.

Lemma write_opens_when_closed_witness :
  let s := mkSys started (fresh [jan15]) in
  file (self s) = None /\
  day (self s) = 0 /\
  let f := self s in
  let '(_, _, l) := write host [Byte.x61] false s in
  exists t1 t2 rm rest,
    l = EvNow (Location_ f) t1 :: EvNow (Location_ f) t2
        :: EvMkdirAll (filepath_Dir host (resolve host f t2)) 493 rm :: rest /\
    filter is_close l = [] /\
    hooks l =
      (if opened_ok l
       then fired (onOpen f) (negb (noHooks f)) (EvOnOpen (resolve host f t2))
       else []).
Proof.
  cbv zeta. split; [reflexivity|]. split; [reflexivity|].
  exact (write_opens_when_closed host [Byte.x61] false
           (mkSys started (fresh [jan15])) eq_refl eq_refl).
Defined.

Lemma write_after_successful_open_witness :
  let s := mkSys opened (disk_after [jan16]) in
  let r := write host [Byte.x61] false s in
  opened_ok (snd r) = true /\
  exists t1 t2 h',
    filter is_now (snd r) = [EvNow UTC t1; EvNow UTC t2] /\
    file (self (snd (fst r))) = Some h' /\
    day (self (snd (fst r))) = YearDay t2 /\
    path (self (snd (fst r))) = daily t2.
Proof.
  cbv zeta. split; [reflexivity|].
  pose proof (write_after_successful_open host [Byte.x61] false
                (mkSys opened (disk_after [jan16]))) as W.
  vm_compute in W.
  destruct (W eq_refl) as (t1 & t2 & h' & Hn & _ & Hf & Hd & Hp).
  exists t1, t2, h'. vm_compute. exact (conj Hn (conj Hf (conj Hd Hp))).
Defined.

Lemma NewFile_instance_witness :
  let f := mkFile None "app.log" UTC 0 "app.log" None false
                  None (Some keep2) None 0 in
  let w' := mkDisk [jan15] [("app.log", [])] [] 4%nat [] [] false false in
  let evs := [EvNow UTC jan15; EvNow UTC jan15; EvMkdirAll "." 493 None;
              EvOpenFile "app.log" 65 420 (inl 3%nat);
              EvSeek 3%nat 0 SeekEnd (inl 0); EvClose 3%nat None] in
  NewFile host "app.log" (Some keep2) (fresh [jan15]) = (inl f, w', evs) /\
  exists t1 t2,
    firstn 2 evs = [EvNow UTC t1; EvNow UTC t2] /\
    f = mkFile None "app.log" UTC 0 (time_Format host t2 "app.log") None
               false None (Some keep2) None 0.
Proof.
  intros f w' evs.
  assert (HN : NewFile host "app.log" (Some keep2) (fresh [jan15])
               = (inl f, w', evs)) by (vm_compute; reflexivity).
  split; [exact HN|].
  exact (NewFile_instance host "app.log" (Some keep2) (fresh [jan15])
           w' f evs HN).
Defined.

Lemma NewFileWithPathGenerator_instance_witness :
  let f := mkFile (Some daily) EmptyString UTC 0 "logs/15.txt" None false
                  None None None 0 in
  let w' := mkDisk [jan15] [("logs/15.txt", [])] [] 4%nat [] [] false false in
  let evs := [EvNow UTC jan15; EvNow UTC jan15; EvMkdirAll "logs" 493 None;
              EvOpenFile "logs/15.txt" 65 420 (inl 3%nat);
              EvSeek 3%nat 0 SeekEnd (inl 0); EvClose 3%nat None] in
  NewFileWithPathGenerator host (Some daily) None (fresh [jan15])
  = (inl f, w', evs) /\
  exists t1 t2,
    firstn 2 evs = [EvNow UTC t1; EvNow UTC t2] /\
    f = mkFile (Some daily) EmptyString UTC 0 (daily t2) None
               false None None None 0.
Proof.
  intros f w' evs.
  assert (HN : NewFileWithPathGenerator host (Some daily) None (fresh [jan15])
               = (inl f, w', evs)) by (vm_compute; reflexivity).
  split; [exact HN|].
  exact (NewFileWithPathGenerator_instance host (Some daily) None
           (fresh [jan15]) w' f evs HN).
Defined.

End RunMore.
